(** * Workflow status update handler (api/router/pubsub)

    A shallow embedding of [WorkflowStatusUpdateHandler.go]: the two
    message callbacks registered by [Subscribe] and [SubscribeCD], the
    registration functions themselves and the constructor
    [NewWorkflowStatusUpdateHandlerImpl].

    The Go code talks to collaborators through interfaces (the CI and CD
    handlers, the workflow repository, the event factory, the event
    client, the broker connection).  Every such call is modelled as a
    function on an abstract world [W], and is recorded, with its
    arguments and its answer, in the list of actions the computation
    produces.  Properties of the handler are then statements about that
    list, for every implementation of the collaborators. *)

From Stdlib Require Import ZArith String List Bool Lia.
Import ListNotations.

Local Open Scope Z_scope.
Local Open Scope string_scope.
Local Open Scope list_scope.

(** ** Go values *)

(** Go's [error]: [None] is [nil], [Some m] a non-nil error with message
    [m]. *)
Definition error : Type := option string.

Definition is_nil (e : error) : bool :=
  match e with None => true | Some _ => false end.

(** Phases of the workflow engine, as the [v1alpha1] package names
    them. *)
Module v1alpha1.
Definition NodePhase : Type := string.
Definition NodeSucceeded : NodePhase := "Succeeded".
Definition NodeFailed : NodePhase := "Failed".
Definition NodeError : NodePhase := "Error".
End v1alpha1.

Module bean.
(** Modelled from the spec: the [bean] package, which declares the
    workflow type of a run, is not part of the sources; the spec gives
    it as a tag among Pre, Post and Deploy. *)
Inductive CdWorkflowType : Type :=
| CD_WORKFLOW_TYPE_PRE
| CD_WORKFLOW_TYPE_POST
| CD_WORKFLOW_TYPE_DEPLOY.

(** The comparison [==] at this type. *)
Definition eqb (a b : CdWorkflowType) : bool :=
  match a, b with
  | CD_WORKFLOW_TYPE_PRE, CD_WORKFLOW_TYPE_PRE
  | CD_WORKFLOW_TYPE_POST, CD_WORKFLOW_TYPE_POST
  | CD_WORKFLOW_TYPE_DEPLOY, CD_WORKFLOW_TYPE_DEPLOY => true
  | _, _ => false
  end.
End bean.

Module util.
(** Modelled from the spec: the [util/event] package is not part of the
    sources; the spec gives the event type as Success or Fail plus an
    unset default, which is what [util.EventType(0)] denotes in the
    handler. *)
Inductive EventType : Type :=
| EventType_0
| Success
| Fail.

(** Modelled from the spec: the category of an event, of which the
    handler uses the deploy one, [util.CD]. *)
Inductive PipelineType : Type :=
| CI
| CD.
End util.

Module pipelineConfig.
(** Modelled from the spec: the [pipelineConfig] package is not part of
    the sources; the run record carries a run identifier, its workflow
    type, the pipeline identifier of its parent workflow and the
    application and environment identifiers of that pipeline.  The
    nesting of the three records follows the field paths the handler
    reads ([wfr.CdWorkflow.PipelineId], [wfr.CdWorkflow.Pipeline.AppId],
    [wfr.CdWorkflow.Pipeline.EnvironmentId]); every record the lookup
    returns without error is taken to have all of them. *)
Record Pipeline : Type := mkPipeline
  { AppId : Z;
    EnvironmentId : Z }.

Record CdWorkflow : Type := mkCdWorkflow
  { PipelineId : Z;
    Pipeline_ : Pipeline }.

Record CdWorkflowRunner : Type := mkCdWorkflowRunner
  { Id : Z;
    WorkflowType : bean.CdWorkflowType;
    CdWorkflow_ : CdWorkflow }.
End pipelineConfig.

(** A message delivered by the broker: its payload, and the sequence
    number the broker gave it. *)
Module stan.
Record Msg : Type := mkMsg
  { Sequence : Z;
    Data : string }.

(** The subscription options the two registrations pass. *)
Inductive SubscriptionOption : Type :=
| DurableName (name : string)
| StartWithLastReceived
| AckWait (nanoseconds : Z)
| SetManualAckMode
| MaxInflight (n : Z).
End stan.

(** [time.Duration] is a signed 64-bit count of nanoseconds. *)
Module time.
Definition int64 (z : Z) : Z :=
  (z + 2 ^ 63) mod 2 ^ 64 - 2 ^ 63.

Definition Second : Z := 1000000000.

(** [time.Duration(n) * time.Second] *)
Definition seconds (n : Z) : Z := int64 (int64 n * Second).
End time.

Definition workflowStatusUpdate : string := "WORKFLOW_STATUS_UPDATE".
Definition workflowStatusUpdateGroup : string := "WORKFLOW_STATUS_UPDATE_GROUP-1".
Definition workflowStatusUpdateDurable : string := "WORKFLOW_STATUS_UPDATE_DURABLE-1".

Definition cdWorkflowStatusUpdate : string := "CD_WORKFLOW_STATUS_UPDATE".
Definition cdWorkflowStatusUpdateGroup : string := "CD_WORKFLOW_STATUS_UPDATE_GROUP-1".
Definition cdWorkflowStatusUpdateDurable : string := "CD_WORKFLOW_STATUS_UPDATE_DURABLE-1".

(** ** Actions, and computations that produce them *)

Section Model.

(** The decoded status report ([v1alpha1.WorkflowStatus]), the
    notification event ([client.Event]) and the state of everything
    outside the handler. *)
Context {WorkflowStatus Event W : Type}.

(** An argument of a logger call. *)
Inductive LogArg : Type :=
| LStr (s : string)
| LInt (n : Z)
| LErr (e : error)
| LStatus (wf : WorkflowStatus)
| LEvent (ev : Event).

Inductive Level : Type :=
| Debug
| Error.

(** What the handler does to the outside, each call with its
    arguments and with what it answered. *)
Inductive Action : Type :=
| ALog (lvl : Level) (args : list LogArg)
| AAck (msg : stan.Msg) (r : error)
| ACiUpdateWorkflow (wf : WorkflowStatus) (r : Z * error)
| ACdUpdateWorkflow (wf : WorkflowStatus) (r : Z * string * error)
| AFindWorkflowRunnerById (id : Z) (r : pipelineConfig.CdWorkflowRunner * error)
| ABuild (eventType : util.EventType) (pipelineId appId envId : Z)
         (pipelineType : util.PipelineType) (r : Event)
| ABuildExtraCDData (ev : Event) (wfr : pipelineConfig.CdWorkflowRunner)
                    (n : Z) (stage : bean.CdWorkflowType) (r : Event)
| AWriteEvent (ev : Event) (r : bool * error)
| AQueueSubscribe (subject qgroup : string)
                  (opts : list stan.SubscriptionOption) (r : error).

(** The outcome of a computation: its value, the world it leaves and
    the actions it performed, oldest first. *)
Record Outcome (A : Type) : Type := mkOutcome
  { value : A;
    world : W;
    actions : list Action }.

Definition M (A : Type) : Type := W -> Outcome A.

Definition ret {A : Type} (a : A) : M A :=
  fun w => mkOutcome A a w [].

Definition bind {A B : Type} (m : M A) (f : A -> M B) : M B :=
  fun w =>
    match m w with
    | mkOutcome _ a w1 t1 =>
        match f a w1 with
        | mkOutcome _ b w2 t2 => mkOutcome B b w2 (t1 ++ t2)
        end
    end.

(** A call to a collaborator: run it on the world, record it. *)
Definition call {A : Type} (op : W -> A * W) (act : A -> Action) : M A :=
  fun w => let (a, w') := op w in mkOutcome A a w' [act a].

(** A logger call; the log is not part of the world. *)
Definition log (lvl : Level) (args : list LogArg) : M unit :=
  fun w => mkOutcome unit tt w [ALog lvl args].

(** [defer d] followed by [body]: [d] runs when [body] returns. *)
Definition defer {A : Type} (d : M unit) (body : M A) : M A :=
  bind body (fun a => bind d (fun _ => ret a)).

End Model.

Arguments LogArg : clear implicits.
Arguments Action : clear implicits.
Arguments Outcome : clear implicits.
Arguments M : clear implicits.
Arguments value {WorkflowStatus Event W A} _.
Arguments world {WorkflowStatus Event W A} _.
Arguments actions {WorkflowStatus Event W A} _.

Declare Scope handler_scope.
Delimit Scope handler_scope with handler.
Notation "x <- m ;; k" := (bind m (fun x => k))
  (at level 61, m at next level, right associativity) : handler_scope.
Notation "' p <- m ;; k" := (bind m (fun x => let 'p := x in k))
  (at level 61, p pattern, m at next level, right associativity) : handler_scope.
Notation "m ;; k" := (bind m (fun _ => k))
  (at level 61, right associativity) : handler_scope.
Local Open Scope handler_scope.

(** ** The collaborators and the handler *)

Section Handler.

Context {WorkflowStatus Event W : Type}.

Local Abbreviation Action := (Action WorkflowStatus Event).
Local Abbreviation M := (M WorkflowStatus Event W).

(** [json.Unmarshal] at [v1alpha1.WorkflowStatus]: from the payload and
    the value to fill, the value filled and the decoding error; and the
    zero value [v1alpha1.WorkflowStatus{}] it is given to fill. *)
Variable json_Unmarshal : string -> WorkflowStatus -> WorkflowStatus * error.
Variable WorkflowStatus_zero : WorkflowStatus.

(** [pipeline.CiHandler] *)
Record CiHandler : Type := mkCiHandler
  { Ci_UpdateWorkflow : WorkflowStatus -> W -> (Z * error) * W }.

(** [pipeline.CdHandler] *)
Record CdHandler : Type := mkCdHandler
  { Cd_UpdateWorkflow : WorkflowStatus -> W -> (Z * string * error) * W }.

(** [pipelineConfig.CdWorkflowRepository] *)
Record CdWorkflowRepository : Type := mkCdWorkflowRepository
  { FindWorkflowRunnerById :
      Z -> W -> (pipelineConfig.CdWorkflowRunner * error) * W }.

(** [client.EventFactory]; the two identifiers [Build] takes by
    address are passed by value. *)
Record EventFactory : Type := mkEventFactory
  { Build :
      util.EventType -> Z -> Z -> Z -> util.PipelineType -> W -> Event * W;
    BuildExtraCDData :
      Event -> pipelineConfig.CdWorkflowRunner -> Z -> bean.CdWorkflowType ->
      W -> Event * W }.

(** [client.EventClient] *)
Record EventClient : Type := mkEventClient
  { WriteEvent : Event -> W -> (bool * error) * W }.

(** The broker connection: [Conn.QueueSubscribe], of which the handler
    keeps the error only, and the [Ack] of a message it delivered. *)
Record Conn : Type := mkConn
  { QueueSubscribe :
      string -> string -> (stan.Msg -> M unit) ->
      list stan.SubscriptionOption -> W -> error * W;
    Ack : stan.Msg -> W -> error * W }.

(** [pubsub.PubSubClient] *)
Record PubSubClient : Type := mkPubSubClient
  { Conn_ : Conn;
    AckDuration : Z }.

(** The handler's struct; the logger is the [ALog] action. *)
Record WorkflowStatusUpdateHandlerImpl : Type := mkImpl
  { pubsubClient : PubSubClient;
    ciHandler : CiHandler;
    cdHandler : CdHandler;
    eventFactory : EventFactory;
    eventClient : EventClient;
    cdWorkflowRepository : CdWorkflowRepository }.

Definition non_nil (e : error) : bool := negb (is_nil e).

(** [msg.Ack()], its error dropped. *)
Definition msg_Ack (impl : WorkflowStatusUpdateHandlerImpl) (msg : stan.Msg)
  : M unit :=
  _ <- call (Ack (Conn_ (pubsubClient impl)) msg) (AAck msg) ;;
  ret tt.

(** The function [Subscribe] registers: what is done with one message
    of the build channel. *)
Definition Subscribe_callback (impl : WorkflowStatusUpdateHandlerImpl)
    (msg : stan.Msg) : M unit :=
  log Debug [LStr "received wf update request"] ;;
  defer (msg_Ack impl msg)
    (let wfStatus := WorkflowStatus_zero in
     let '(wfStatus, err) := json_Unmarshal (stan.Data msg) wfStatus in
     if non_nil err then
       log Error [LStr "error on wf status update"; LStr "err"; LErr err;
                  LStr "msg"; LStr (stan.Data msg)] ;;
       ret tt
     else
       '(_, err) <- call (Ci_UpdateWorkflow (ciHandler impl) wfStatus)
                         (ACiUpdateWorkflow wfStatus) ;;
       if non_nil err then
         log Error [LStr "error on update workflow status"; LStr "err";
                    LErr err; LStr "msg"; LStr (stan.Data msg)] ;;
         ret tt
       else
         ret tt).

(** The terminal-status guard of [SubscribeCD]. *)
Definition isTerminal (wfrStatus : string) : bool :=
  (wfrStatus =? v1alpha1.NodeSucceeded)
  || (wfrStatus =? v1alpha1.NodeFailed)
  || (wfrStatus =? v1alpha1.NodeError).

(** The event type chosen inside the guard: the variable starts as
    [util.EventType(0)] and is assigned in one of two branches. *)
Definition eventTypeOf (wfrStatus : string) : util.EventType :=
  let eventType := util.EventType_0 in
  if wfrStatus =? v1alpha1.NodeSucceeded then util.Success
  else if (wfrStatus =? v1alpha1.NodeFailed)
          || (wfrStatus =? v1alpha1.NodeError) then util.Fail
  else eventType.

(** One branch of the stage dispatch: build, enrich, send, and log a
    failure to send. *)
Definition notifyStage (impl : WorkflowStatusUpdateHandlerImpl)
    (eventType : util.EventType) (wfr : pipelineConfig.CdWorkflowRunner)
    (stage : bean.CdWorkflowType) (built failed : string) : M unit :=
  let cdw := pipelineConfig.CdWorkflow_ wfr in
  let pipelineId := pipelineConfig.PipelineId cdw in
  let appId := pipelineConfig.AppId (pipelineConfig.Pipeline_ cdw) in
  let envId := pipelineConfig.EnvironmentId (pipelineConfig.Pipeline_ cdw) in
  event <- call (Build (eventFactory impl) eventType pipelineId appId envId util.CD)
                (ABuild eventType pipelineId appId envId util.CD) ;;
  log Debug [LStr built; LStr "event"; LEvent event] ;;
  event <- call (BuildExtraCDData (eventFactory impl) event wfr 0 stage)
                (ABuildExtraCDData event wfr 0 stage) ;;
  '(_, evtErr) <- call (WriteEvent (eventClient impl) event)
                       (AWriteEvent event) ;;
  if non_nil evtErr then
    log Error [LStr failed; LStr "error"; LErr evtErr]
  else
    ret tt.

(** The function [SubscribeCD] registers: what is done with one
    message of the deploy channel. *)
Definition SubscribeCD_callback (impl : WorkflowStatusUpdateHandlerImpl)
    (msg : stan.Msg) : M unit :=
  log Debug [LStr "received cd wf update request"] ;;
  defer (msg_Ack impl msg)
    (let wfStatus := WorkflowStatus_zero in
     let '(wfStatus, err) := json_Unmarshal (stan.Data msg) wfStatus in
     if non_nil err then
       log Error [LStr "err"; LErr err] ;;
       ret tt
     else
       log Debug [LStr "received cd wf update request body"; LStr "body";
                  LStatus wfStatus] ;;
       '(wfrId, wfrStatus, err) <-
         call (Cd_UpdateWorkflow (cdHandler impl) wfStatus)
              (ACdUpdateWorkflow wfStatus) ;;
       log Debug [LInt wfrId] ;;
       if non_nil err then
         log Error [LStr "err"; LErr err] ;;
         ret tt
       else
         '(wfr, err) <-
           call (FindWorkflowRunnerById (cdWorkflowRepository impl) wfrId)
                (AFindWorkflowRunnerById wfrId) ;;
         if non_nil err then
           log Error [LStr "could not get wf runner"; LStr "err"; LErr err] ;;
           ret tt
         else if isTerminal wfrStatus then
           let eventType := eventTypeOf wfrStatus in
           if bean.eqb (pipelineConfig.WorkflowType wfr) bean.CD_WORKFLOW_TYPE_PRE then
             notifyStage impl eventType wfr bean.CD_WORKFLOW_TYPE_PRE
               "event pre stage"
               "CD stage post fail or success event unable to sent"
           else if bean.eqb (pipelineConfig.WorkflowType wfr) bean.CD_WORKFLOW_TYPE_POST then
             notifyStage impl eventType wfr bean.CD_WORKFLOW_TYPE_POST
               "event post stage"
               "CD stage post fail or success event not sent"
           else
             ret tt
         else
           ret tt).

(** The options both registrations pass, up to the durable name. *)
Definition subscriptionOptions (impl : WorkflowStatusUpdateHandlerImpl)
    (durable : string) : list stan.SubscriptionOption :=
  [stan.DurableName durable;
   stan.StartWithLastReceived;
   stan.AckWait (time.seconds (AckDuration (pubsubClient impl)));
   stan.SetManualAckMode;
   stan.MaxInflight 1].

Definition Subscribe (impl : WorkflowStatusUpdateHandlerImpl) : M error :=
  let opts := subscriptionOptions impl workflowStatusUpdateDurable in
  err <- call (QueueSubscribe (Conn_ (pubsubClient impl))
                 workflowStatusUpdate workflowStatusUpdateGroup
                 (Subscribe_callback impl) opts)
              (AQueueSubscribe workflowStatusUpdate workflowStatusUpdateGroup opts) ;;
  if non_nil err then
    log Error [LStr "err"; LErr err] ;;
    ret err
  else
    ret None.

Definition SubscribeCD (impl : WorkflowStatusUpdateHandlerImpl) : M error :=
  let opts := subscriptionOptions impl cdWorkflowStatusUpdateDurable in
  err <- call (QueueSubscribe (Conn_ (pubsubClient impl))
                 cdWorkflowStatusUpdate cdWorkflowStatusUpdateGroup
                 (SubscribeCD_callback impl) opts)
              (AQueueSubscribe cdWorkflowStatusUpdate cdWorkflowStatusUpdateGroup opts) ;;
  if non_nil err then
    log Error [LStr "err"; LErr err] ;;
    ret err
  else
    ret None.

(** The constructor; [None] is the [nil] it returns when a registration
    failed. *)
Definition NewWorkflowStatusUpdateHandlerImpl
    (pubsubClient : PubSubClient) (ciHandler : CiHandler)
    (cdHandler : CdHandler) (eventFactory : EventFactory)
    (eventClient : EventClient) (cdWorkflowRepository : CdWorkflowRepository)
  : M (option WorkflowStatusUpdateHandlerImpl) :=
  let workflowStatusUpdateHandlerImpl :=
    mkImpl pubsubClient ciHandler cdHandler eventFactory eventClient
           cdWorkflowRepository in
  err <- Subscribe workflowStatusUpdateHandlerImpl ;;
  if non_nil err then
    log Error [LStr "err"; LErr err] ;;
    ret None
  else
    err <- SubscribeCD workflowStatusUpdateHandlerImpl ;;
    if non_nil err then
      log Error [LStr "err"; LErr err] ;;
      ret None
    else
      ret (Some workflowStatusUpdateHandlerImpl).

(** What one message of the build channel, and one of the deploy
    channel, makes the handler do. *)
Definition buildTrace (impl : WorkflowStatusUpdateHandlerImpl)
    (msg : stan.Msg) (w : W) : list Action :=
  actions (Subscribe_callback impl msg w).

Definition deployTrace (impl : WorkflowStatusUpdateHandlerImpl)
    (msg : stan.Msg) (w : W) : list Action :=
  actions (SubscribeCD_callback impl msg w).

End Handler.

Arguments CiHandler : clear implicits.
Arguments CdHandler : clear implicits.
Arguments CdWorkflowRepository : clear implicits.
Arguments EventFactory : clear implicits.
Arguments EventClient : clear implicits.
Arguments Conn : clear implicits.
Arguments PubSubClient : clear implicits.
Arguments WorkflowStatusUpdateHandlerImpl : clear implicits.

(** ** Reading a list of actions *)

Section Observations.

Context {WorkflowStatus Event : Type}.

Local Abbreviation Action := (Action WorkflowStatus Event).

(** The acknowledgments issued, as the messages acknowledged. *)
Fixpoint acks (tr : list Action) : list stan.Msg :=
  match tr with
  | [] => []
  | AAck msg _ :: tr' => msg :: acks tr'
  | _ :: tr' => acks tr'
  end.

(** The notifications dispatched: the events given to [WriteEvent]. *)
Fixpoint dispatched (tr : list Action) : list Event :=
  match tr with
  | [] => []
  | AWriteEvent ev _ :: tr' => ev :: dispatched tr'
  | _ :: tr' => dispatched tr'
  end.

(** The event types given to [Build]. *)
Fixpoint built (tr : list Action) : list util.EventType :=
  match tr with
  | [] => []
  | ABuild eventType _ _ _ _ _ :: tr' => eventType :: built tr'
  | _ :: tr' => built tr'
  end.

(** The stages given to [BuildExtraCDData]. *)
Fixpoint enriched (tr : list Action) : list bean.CdWorkflowType :=
  match tr with
  | [] => []
  | ABuildExtraCDData _ _ _ stage _ :: tr' => stage :: enriched tr'
  | _ :: tr' => enriched tr'
  end.

(** The statuses given to the build handler's update. *)
Fixpoint ciUpdates (tr : list Action) : list WorkflowStatus :=
  match tr with
  | [] => []
  | ACiUpdateWorkflow wf _ :: tr' => wf :: ciUpdates tr'
  | _ :: tr' => ciUpdates tr'
  end.

(** Whether an action is a logger call. *)
Definition isLog (a : Action) : bool :=
  match a with
  | ALog _ _ => true
  | _ => false
  end.

(** The calls to collaborators other than the logger and the
    acknowledgment. *)
Fixpoint downstream (tr : list Action) : list Action :=
  match tr with
  | [] => []
  | ALog _ _ :: tr' => downstream tr'
  | AAck _ _ :: tr' => downstream tr'
  | a :: tr' => a :: downstream tr'
  end.

(** The registrations asked of the broker: subject and answer. *)
Fixpoint registrations (tr : list Action) : list (string * error) :=
  match tr with
  | [] => []
  | AQueueSubscribe subject _ _ r :: tr' => (subject, r) :: registrations tr'
  | _ :: tr' => registrations tr'
  end.

End Observations.

(** ** A small instance to run the handler on *)

Module Demo.

(** A status report reduced to the run it is about and its phase. *)
Record WorkflowStatus : Type := mkStatus
  { runId : Z;
    phase : string }.

Record Event : Type := mkEvent
  { evType : util.EventType;
    evPipelineId : Z;
    evAppId : Z;
    evEnvId : Z;
    evCategory : util.PipelineType;
    evStage : option bean.CdWorkflowType }.

(** The outside: the stored runs, the events sent, the sequence numbers
    acknowledged, whether the notification service answers, and the
    subjects the broker refuses to register. *)
Record World : Type := mkWorld
  { runners : list pipelineConfig.CdWorkflowRunner;
    outbox : list Event;
    acked : list Z;
    clientUp : bool;
    refused : list string;
    registered : list string }.

Definition digit (c : Ascii.ascii) : option Z :=
  let n := Z.of_nat (Ascii.nat_of_ascii c) in
  if ((48 <=? n) && (n <=? 57))%Z then Some (n - 48) else None.

(** A payload is a digit, the run, followed by the phase. *)
Definition decode (data : string) (v : WorkflowStatus) : WorkflowStatus * error :=
  match data with
  | EmptyString => (v, Some "unexpected end of JSON input")
  | String c rest =>
      match digit c with
      | Some n => (mkStatus n rest, None)
      | None => (v, Some "invalid character")
      end
  end.

Definition zero : WorkflowStatus := mkStatus 0 "".

Definition ci : CiHandler WorkflowStatus World :=
  mkCiHandler (fun wf w => ((runId wf, None), w)).

Definition cd : CdHandler WorkflowStatus World :=
  mkCdHandler (fun wf w => ((runId wf, phase wf, None), w)).

Definition noRunner : pipelineConfig.CdWorkflowRunner :=
  pipelineConfig.mkCdWorkflowRunner 0 bean.CD_WORKFLOW_TYPE_DEPLOY
    (pipelineConfig.mkCdWorkflow 0 (pipelineConfig.mkPipeline 0 0)).

Definition repo : CdWorkflowRepository World :=
  mkCdWorkflowRepository
    (fun id w =>
       match find (fun r => pipelineConfig.Id r =? id)%Z (runners w) with
       | Some r => ((r, None), w)
       | None => ((noRunner, Some "pg: no rows in result set"), w)
       end).

Definition factory : EventFactory Event World :=
  mkEventFactory
    (fun et p a e c w => (mkEvent et p a e c None, w))
    (fun ev _ _ stage w =>
       (mkEvent (evType ev) (evPipelineId ev) (evAppId ev) (evEnvId ev)
                (evCategory ev) (Some stage), w)).

Definition client : EventClient Event World :=
  mkEventClient
    (fun ev w =>
       if clientUp w then
         ((true, None),
          mkWorld (runners w) (outbox w ++ [ev]) (acked w) (clientUp w)
                  (refused w) (registered w))
       else ((false, Some "connection refused"), w)).

Definition conn : Conn WorkflowStatus Event World :=
  mkConn
    (fun subject _ _ _ w =>
       if existsb (String.eqb subject) (refused w) then
         (Some "stan: subscribe request timeout", w)
       else
         (None,
          mkWorld (runners w) (outbox w) (acked w) (clientUp w) (refused w)
                  (registered w ++ [subject])))
    (fun msg w =>
       (None,
        mkWorld (runners w) (outbox w) (acked w ++ [stan.Sequence msg])
                (clientUp w) (refused w) (registered w))).

Definition impl : WorkflowStatusUpdateHandlerImpl WorkflowStatus Event World :=
  mkImpl (mkPubSubClient conn 30) ci cd factory client repo.

Definition runner (id : Z) (t : bean.CdWorkflowType) : pipelineConfig.CdWorkflowRunner :=
  pipelineConfig.mkCdWorkflowRunner id t
    (pipelineConfig.mkCdWorkflow 7 (pipelineConfig.mkPipeline 3 9)).

(** Runs 1, 2 and 3 are a pre-stage, a post-stage and a deploy run of
    pipeline 7, application 3, environment 9. *)
Definition w0 : World :=
  mkWorld [runner 1 bean.CD_WORKFLOW_TYPE_PRE;
           runner 2 bean.CD_WORKFLOW_TYPE_POST;
           runner 3 bean.CD_WORKFLOW_TYPE_DEPLOY]
          [] [] true [] [].

(** The same, with the notification service down. *)
Definition w_down : World :=
  mkWorld (runners w0) [] [] false [] [].

(** The same, with a broker that refuses the deploy subject, and one
    that refuses the build subject. *)
Definition w_no_cd : World :=
  mkWorld (runners w0) [] [] true [cdWorkflowStatusUpdate] [].

Definition w_no_ci : World :=
  mkWorld (runners w0) [] [] true [workflowStatusUpdate] [].

Definition new (w : World) :=
  NewWorkflowStatusUpdateHandlerImpl decode zero
    (mkPubSubClient conn 30) ci cd factory client repo w.

Definition onBuild (msg : stan.Msg) (w : World) : list (Action WorkflowStatus Event) :=
  buildTrace decode zero impl msg w.

Definition onDeploy (msg : stan.Msg) (w : World) : list (Action WorkflowStatus Event) :=
  deployTrace decode zero impl msg w.

End Demo.

(** ** The course of a run *)

Section Protocol.

Context {WorkflowStatus Event : Type}.

Local Abbreviation Action := (Action WorkflowStatus Event).

(** The kinds of call a run makes to its collaborators, the logger and
    the acknowledgment apart. *)
Inductive Step : Type :=
| SCiUpdate
| SCdUpdate
| SFind
| SBuild
| SEnrich
| SWrite
| SSubscribe.

Fixpoint steps (tr : list Action) : list Step :=
  match tr with
  | [] => []
  | ALog _ _ :: tr' => steps tr'
  | AAck _ _ :: tr' => steps tr'
  | ACiUpdateWorkflow _ _ :: tr' => SCiUpdate :: steps tr'
  | ACdUpdateWorkflow _ _ :: tr' => SCdUpdate :: steps tr'
  | AFindWorkflowRunnerById _ _ :: tr' => SFind :: steps tr'
  | ABuild _ _ _ _ _ _ :: tr' => SBuild :: steps tr'
  | ABuildExtraCDData _ _ _ _ _ :: tr' => SEnrich :: steps tr'
  | AWriteEvent _ _ :: tr' => SWrite :: steps tr'
  | AQueueSubscribe _ _ _ _ :: tr' => SSubscribe :: steps tr'
  end.

(** A call whose answer carries a non-nil error, among the calls whose
    error the handler looks at. *)
Definition failed (a : Action) : bool :=
  match a with
  | ACiUpdateWorkflow _ (_, Some _) => true
  | ACdUpdateWorkflow _ (_, _, Some _) => true
  | AFindWorkflowRunnerById _ (_, Some _) => true
  | AWriteEvent _ (_, Some _) => true
  | AQueueSubscribe _ _ _ (Some _) => true
  | _ => false
  end.

(** What a run does after the first failed call. *)
Fixpoint afterFirstFailure (tr : list Action) : list Action :=
  match tr with
  | [] => []
  | a :: tr' => if failed a then tr' else afterFirstFailure tr'
  end.

(** The logger calls at level Error. *)
Fixpoint errorLogs (tr : list Action) : list (list (LogArg WorkflowStatus Event)) :=
  match tr with
  | [] => []
  | ALog Error args :: tr' => args :: errorLogs tr'
  | _ :: tr' => errorLogs tr'
  end.

(** The options given with each registration. *)
Fixpoint registrationOptions (tr : list Action)
  : list (string * string * list stan.SubscriptionOption) :=
  match tr with
  | [] => []
  | AQueueSubscribe subject qgroup opts _ :: tr' =>
      (subject, qgroup, opts) :: registrationOptions tr'
  | _ :: tr' => registrationOptions tr'
  end.

End Protocol.

(** ** Collaborators that fail *)

Module Faulty.

(** A build handler and a deploy handler whose update answers an
    error. *)
Definition ci : CiHandler Demo.WorkflowStatus Demo.World :=
  mkCiHandler (fun _ w => ((0, Some "workflow not found"), w)).

Definition cd : CdHandler Demo.WorkflowStatus Demo.World :=
  mkCdHandler (fun _ w => ((0, "", Some "workflow not found"), w)).

Definition impl : WorkflowStatusUpdateHandlerImpl Demo.WorkflowStatus Demo.Event Demo.World :=
  mkImpl (mkPubSubClient Demo.conn 30) ci cd Demo.factory Demo.client Demo.repo.

Definition onBuild (msg : stan.Msg) (w : Demo.World)
  : list (Action Demo.WorkflowStatus Demo.Event) :=
  buildTrace Demo.decode Demo.zero impl msg w.

Definition onDeploy (msg : stan.Msg) (w : Demo.World)
  : list (Action Demo.WorkflowStatus Demo.Event) :=
  deployTrace Demo.decode Demo.zero impl msg w.

End Faulty.

(** ** Properties of the handler *)

(** The handler runs: a succeeded pre-stage run sends one event. *)
Example demo_pre_succeeded :
  Demo.onDeploy (stan.mkMsg 11 "1Succeeded") Demo.w0
  = [ALog Debug [LStr "received cd wf update request"];
     ALog Debug [LStr "received cd wf update request body"; LStr "body";
                 LStatus (Demo.mkStatus 1 "Succeeded")];
     ACdUpdateWorkflow (Demo.mkStatus 1 "Succeeded") (1, "Succeeded", None);
     ALog Debug [LInt 1];
     AFindWorkflowRunnerById 1 (Demo.runner 1 bean.CD_WORKFLOW_TYPE_PRE, None);
     ABuild util.Success 7 3 9 util.CD
            (Demo.mkEvent util.Success 7 3 9 util.CD None);
     ALog Debug [LStr "event pre stage"; LStr "event";
                 LEvent (Demo.mkEvent util.Success 7 3 9 util.CD None)];
     ABuildExtraCDData (Demo.mkEvent util.Success 7 3 9 util.CD None)
                       (Demo.runner 1 bean.CD_WORKFLOW_TYPE_PRE) 0
                       bean.CD_WORKFLOW_TYPE_PRE
                       (Demo.mkEvent util.Success 7 3 9 util.CD
                                     (Some bean.CD_WORKFLOW_TYPE_PRE));
     AWriteEvent (Demo.mkEvent util.Success 7 3 9 util.CD
                               (Some bean.CD_WORKFLOW_TYPE_PRE)) (true, None);
     AAck (stan.mkMsg 11 "1Succeeded") None].
Proof. reflexivity. Qed.

(** A failed post-stage run with the notification service down: the
    failure to send is logged and the message acknowledged. *)
Example demo_post_failed_down :
  Demo.onDeploy (stan.mkMsg 12 "2Failed") Demo.w_down
  = [ALog Debug [LStr "received cd wf update request"];
     ALog Debug [LStr "received cd wf update request body"; LStr "body";
                 LStatus (Demo.mkStatus 2 "Failed")];
     ACdUpdateWorkflow (Demo.mkStatus 2 "Failed") (2, "Failed", None);
     ALog Debug [LInt 2];
     AFindWorkflowRunnerById 2 (Demo.runner 2 bean.CD_WORKFLOW_TYPE_POST, None);
     ABuild util.Fail 7 3 9 util.CD
            (Demo.mkEvent util.Fail 7 3 9 util.CD None);
     ALog Debug [LStr "event post stage"; LStr "event";
                 LEvent (Demo.mkEvent util.Fail 7 3 9 util.CD None)];
     ABuildExtraCDData (Demo.mkEvent util.Fail 7 3 9 util.CD None)
                       (Demo.runner 2 bean.CD_WORKFLOW_TYPE_POST) 0
                       bean.CD_WORKFLOW_TYPE_POST
                       (Demo.mkEvent util.Fail 7 3 9 util.CD
                                     (Some bean.CD_WORKFLOW_TYPE_POST));
     AWriteEvent (Demo.mkEvent util.Fail 7 3 9 util.CD
                               (Some bean.CD_WORKFLOW_TYPE_POST))
                 (false, Some "connection refused");
     ALog Error [LStr "CD stage post fail or success event not sent";
                 LStr "error"; LErr (Some "connection refused")];
     AAck (stan.mkMsg 12 "2Failed") None].
Proof. reflexivity. Qed.

(** A malformed payload on the build channel. *)
Example demo_build_malformed :
  Demo.onBuild (stan.mkMsg 13 "{") Demo.w0
  = [ALog Debug [LStr "received wf update request"];
     ALog Error [LStr "error on wf status update"; LStr "err";
                 LErr (Some "invalid character"); LStr "msg"; LStr "{"];
     AAck (stan.mkMsg 13 "{") None].
Proof. reflexivity. Qed.

(** Both registrations accepted: the handler is returned, both subjects
    are registered, with the durable names, manual acknowledgment, an
    acknowledgment wait of 30 seconds and one message in flight. *)
Example demo_new_started :
  value (Demo.new Demo.w0) = Some Demo.impl
  /\ Demo.registered (world (Demo.new Demo.w0))
     = ["WORKFLOW_STATUS_UPDATE"; "CD_WORKFLOW_STATUS_UPDATE"]
  /\ actions (Demo.new Demo.w0)
     = [AQueueSubscribe "WORKFLOW_STATUS_UPDATE" "WORKFLOW_STATUS_UPDATE_GROUP-1"
          [stan.DurableName "WORKFLOW_STATUS_UPDATE_DURABLE-1";
           stan.StartWithLastReceived; stan.AckWait 30000000000;
           stan.SetManualAckMode; stan.MaxInflight 1] None;
        AQueueSubscribe "CD_WORKFLOW_STATUS_UPDATE" "CD_WORKFLOW_STATUS_UPDATE_GROUP-1"
          [stan.DurableName "CD_WORKFLOW_STATUS_UPDATE_DURABLE-1";
           stan.StartWithLastReceived; stan.AckWait 30000000000;
           stan.SetManualAckMode; stan.MaxInflight 1] None].
Proof. repeat split. Qed.

(** The deploy registration refused: nil is returned, after the build
    subject was registered. *)
Example demo_new_cd_refused :
  value (Demo.new Demo.w_no_cd) = None
  /\ Demo.registered (world (Demo.new Demo.w_no_cd)) = ["WORKFLOW_STATUS_UPDATE"]
  /\ registrations (actions (Demo.new Demo.w_no_cd))
     = [("WORKFLOW_STATUS_UPDATE", None);
        ("CD_WORKFLOW_STATUS_UPDATE", Some "stan: subscribe request timeout")].
Proof. repeat split. Qed.

(** The build registration refused: nil is returned and the deploy
    registration is not asked. *)
Example demo_new_ci_refused :
  value (Demo.new Demo.w_no_ci) = None
  /\ Demo.registered (world (Demo.new Demo.w_no_ci)) = []
  /\ registrations (actions (Demo.new Demo.w_no_ci))
     = [("WORKFLOW_STATUS_UPDATE", Some "stan: subscribe request timeout")].
Proof. repeat split. Qed.

(** An action is in a list given element by element. *)
Ltac here :=
  cbn; repeat (first [left; reflexivity | right]).

Section Properties.

Context {WorkflowStatus Event W : Type}.
Variable json_Unmarshal : string -> WorkflowStatus -> WorkflowStatus * error.
Variable WorkflowStatus_zero : WorkflowStatus.

Local Abbreviation Action := (Action WorkflowStatus Event).
Local Abbreviation M := (M WorkflowStatus Event W).
Local Abbreviation Impl := (WorkflowStatusUpdateHandlerImpl WorkflowStatus Event W).
Local Abbreviation onBuild := (buildTrace json_Unmarshal WorkflowStatus_zero).
Local Abbreviation onDeploy := (deployTrace json_Unmarshal WorkflowStatus_zero).

(** *** The terminal-status guard *)

Lemma isTerminal_true (s : string) :
  isTerminal s = true
  <-> s = v1alpha1.NodeSucceeded \/ s = v1alpha1.NodeFailed \/ s = v1alpha1.NodeError.
Proof.
  unfold isTerminal. rewrite !orb_true_iff, !String.eqb_eq. tauto.
Qed.

Lemma isTerminal_false (s : string) :
  isTerminal s = false
  <-> s <> v1alpha1.NodeSucceeded /\ s <> v1alpha1.NodeFailed /\ s <> v1alpha1.NodeError.
Proof.
  unfold isTerminal. rewrite !orb_false_iff, !String.eqb_neq. tauto.
Qed.

Lemma eventTypeOf_Succeeded : eventTypeOf v1alpha1.NodeSucceeded = util.Success.
Proof. reflexivity. Qed.

Lemma eventTypeOf_Failed : eventTypeOf v1alpha1.NodeFailed = util.Fail.
Proof. reflexivity. Qed.

Lemma eventTypeOf_Error : eventTypeOf v1alpha1.NodeError = util.Fail.
Proof. reflexivity. Qed.

Lemma eventTypeOf_terminal (s : string) :
  isTerminal s = true -> eventTypeOf s = util.Success \/ eventTypeOf s = util.Fail.
Proof.
  unfold isTerminal, eventTypeOf.
  destruct (s =? v1alpha1.NodeSucceeded); [now left|].
  destruct (s =? v1alpha1.NodeFailed); [now right|].
  destruct (s =? v1alpha1.NodeError); [now right|discriminate].
Qed.

Lemma bean_eqb_eq (a b : bean.CdWorkflowType) : bean.eqb a b = true <-> a = b.
Proof. destruct a, b; cbn; split; congruence. Qed.

(** *** Running the handler by cases *)

(** Case analysis on every answer a collaborator gives along a run. *)
Ltac answers :=
  repeat
    (cbn -[String.eqb isTerminal eventTypeOf];
     match goal with
     | |- context [match ?x with (_, _) => _ end] =>
         match type of x with
         | (_ * _)%type => destruct x eqn:?
         end
     | |- context [non_nil ?e] => destruct e; unfold non_nil at 1
     | |- context [if isTerminal ?s then _ else _] =>
         destruct (isTerminal s) eqn:?
     | |- context [if bean.eqb ?a ?b then _ else _] =>
         destruct (bean.eqb a b) eqn:?
     end);
  cbn -[String.eqb isTerminal eventTypeOf].

Ltac open_handler :=
  unfold buildTrace, deployTrace, Subscribe_callback, SubscribeCD_callback,
    notifyStage, defer, msg_Ack, bind, call, log, ret.

(** The deferred acknowledgment closes a run given element by element:
    its answer and the world it leaves are the broker's. *)
Ltac acked_last :=
  match goal with
  | Hack : Ack _ _ ?w' = _ |- exists pre w'', ?l = _ /\ _ =>
      exists (removelast l), w'; rewrite Hack; split; reflexivity
  end.

(** C1. On either subscription, whatever decoding, the update, the
    lookup of the run and the dispatch answer, the handling of one
    message issues exactly one acknowledgment, of that message, and it
    is the last thing the handler does: the run ends with the broker's
    [Ack] of the message, applied to the world the rest of the run
    left, its answer recorded and its world the one the handler
    returns with. *)
Theorem ack_exactly_once_on_return (impl : Impl) (msg : stan.Msg) (w : W) :
  (acks (onBuild impl msg w) = [msg]
   /\ exists pre w',
        onBuild impl msg w
        = pre ++ [AAck msg (fst (Ack (Conn_ (pubsubClient impl)) msg w'))]
        /\ world (Subscribe_callback json_Unmarshal WorkflowStatus_zero impl msg w)
           = snd (Ack (Conn_ (pubsubClient impl)) msg w'))
  /\ (acks (onDeploy impl msg w) = [msg]
      /\ exists pre w',
           onDeploy impl msg w
           = pre ++ [AAck msg (fst (Ack (Conn_ (pubsubClient impl)) msg w'))]
           /\ world (SubscribeCD_callback json_Unmarshal WorkflowStatus_zero impl msg w)
              = snd (Ack (Conn_ (pubsubClient impl)) msg w')).
Proof.
  split; open_handler; answers; (split; [reflexivity | acked_last]).
Qed.

(** What a hypothesis [In a tr] says once [tr] is known element by
    element. *)
Ltac occurs H :=
  cbn in H;
  repeat (destruct H as [H|H]);
  try discriminate H; try contradiction;
  try (injection H as H; repeat match goal with
                                | E : _ = _ /\ _ |- _ => destruct E
                                end; subst).

(** C2. When, on the deploy channel, the payload decodes, the update
    answers a terminal status without error and the lookup resolves a
    run of workflow type Pre or Post, the handler goes on to build an
    event with type Success for Succeeded and Fail for Failed or Error,
    from the identifiers of the record, to enrich it with the record's
    workflow type as stage, and to give the enriched event to the
    event client's [WriteEvent], once; an error of the dispatch is
    logged, and the message acknowledged.  Each call is made in the
    world the call before it left. *)
Theorem pre_post_terminal_dispatches_once
    (impl : Impl) (msg : stan.Msg) (w w1 w2 : W)
    (wf : WorkflowStatus) (id : Z) (st : string)
    (wfr : pipelineConfig.CdWorkflowRunner) :
  json_Unmarshal (stan.Data msg) WorkflowStatus_zero = (wf, None) ->
  Cd_UpdateWorkflow (cdHandler impl) wf w = (id, st, None, w1) ->
  FindWorkflowRunnerById (cdWorkflowRepository impl) id w1 = (wfr, None, w2) ->
  st = v1alpha1.NodeSucceeded \/ st = v1alpha1.NodeFailed \/ st = v1alpha1.NodeError ->
  pipelineConfig.WorkflowType wfr = bean.CD_WORKFLOW_TYPE_PRE
  \/ pipelineConfig.WorkflowType wfr = bean.CD_WORKFLOW_TYPE_POST ->
  exists (eventType : util.EventType) (stageText failText : string),
    (st = v1alpha1.NodeSucceeded -> eventType = util.Success)
    /\ (st = v1alpha1.NodeFailed \/ st = v1alpha1.NodeError -> eventType = util.Fail)
    /\ let pipelineId := pipelineConfig.PipelineId (pipelineConfig.CdWorkflow_ wfr) in
       let appId :=
         pipelineConfig.AppId
           (pipelineConfig.Pipeline_ (pipelineConfig.CdWorkflow_ wfr)) in
       let envId :=
         pipelineConfig.EnvironmentId
           (pipelineConfig.Pipeline_ (pipelineConfig.CdWorkflow_ wfr)) in
       let stage := pipelineConfig.WorkflowType wfr in
       let base :=
         Build (eventFactory impl) eventType pipelineId appId envId util.CD w2 in
       let enr :=
         BuildExtraCDData (eventFactory impl) (fst base) wfr 0 stage (snd base) in
       let sent := WriteEvent (eventClient impl) (fst enr) (snd enr) in
       let ack := Ack (Conn_ (pubsubClient impl)) msg (snd sent) in
       onDeploy impl msg w
       = [ALog Debug [LStr "received cd wf update request"];
          ALog Debug [LStr "received cd wf update request body"; LStr "body";
                      LStatus wf];
          ACdUpdateWorkflow wf (id, st, None);
          ALog Debug [LInt id];
          AFindWorkflowRunnerById id (wfr, None);
          ABuild eventType pipelineId appId envId util.CD (fst base);
          ALog Debug [LStr stageText; LStr "event"; LEvent (fst base)];
          ABuildExtraCDData (fst base) wfr 0 stage (fst enr);
          AWriteEvent (fst enr) (fst sent)]
         ++ (if is_nil (snd (fst sent)) then []
             else [ALog Error [LStr failText; LStr "error"; LErr (snd (fst sent))]])
         ++ [AAck msg (fst ack)]
       /\ dispatched (onDeploy impl msg w) = [fst enr]
       /\ built (onDeploy impl msg w) = [eventType]
       /\ enriched (onDeploy impl msg w) = [stage]
       /\ world (SubscribeCD_callback json_Unmarshal WorkflowStatus_zero impl msg w)
          = snd ack.
Proof.
  intros Hdec Hupd Hfind Hst Hty.
  assert (Hterm : isTerminal st = true) by now apply isTerminal_true.
  exists (eventTypeOf st).
  assert (Hstage :
    exists stageText failText,
      (if bean.eqb (pipelineConfig.WorkflowType wfr) bean.CD_WORKFLOW_TYPE_PRE
       then stageText = "event pre stage"
            /\ failText = "CD stage post fail or success event unable to sent"
       else stageText = "event post stage"
            /\ failText = "CD stage post fail or success event not sent")).
  { destruct (bean.eqb _ _); eexists _, _; split; reflexivity. }
  destruct Hstage as (stageText & failText & Htexts).
  exists stageText, failText.
  split; [now intros -> |]. split; [now intros [-> | ->] |].
  cbn zeta. open_handler. rewrite Hdec. cbn -[String.eqb isTerminal eventTypeOf].
  rewrite Hupd. cbn -[String.eqb isTerminal eventTypeOf].
  rewrite Hfind. cbn -[String.eqb isTerminal eventTypeOf].
  rewrite Hterm.
  destruct Hty as [Hty | Hty]; rewrite Hty in *;
    cbn -[String.eqb isTerminal eventTypeOf] in *;
    destruct Htexts as [-> ->];
    answers; repeat split.
Qed.

(** C3. When the lookup, on the deploy channel, answered a run of
    workflow type Deploy, nothing is built, enriched or dispatched,
    whatever the status. *)
Theorem deploy_stage_never_notified
    (impl : Impl) (msg : stan.Msg) (w : W)
    (id : Z) (wfr : pipelineConfig.CdWorkflowRunner) (err : error) :
  In (AFindWorkflowRunnerById id (wfr, err)) (onDeploy impl msg w) ->
  pipelineConfig.WorkflowType wfr = bean.CD_WORKFLOW_TYPE_DEPLOY ->
  dispatched (onDeploy impl msg w) = []
  /\ built (onDeploy impl msg w) = []
  /\ enriched (onDeploy impl msg w) = [].
Proof.
  open_handler; answers; intros Hfind Hty; occurs Hfind;
    try (repeat split; reflexivity).
  all: match goal with
       | E : bean.eqb _ _ = true |- _ => rewrite Hty in E; discriminate E
       end.
Qed.

(** C4. When the update, on the deploy channel, answered a status that
    is none of Succeeded, Failed and Error, nothing is built, enriched
    or dispatched, whatever the record's workflow type. *)
Theorem non_terminal_status_no_notification
    (impl : Impl) (msg : stan.Msg) (w : W)
    (wf : WorkflowStatus) (id : Z) (st : string) (err : error) :
  In (ACdUpdateWorkflow wf (id, st, err)) (onDeploy impl msg w) ->
  st <> v1alpha1.NodeSucceeded ->
  st <> v1alpha1.NodeFailed ->
  st <> v1alpha1.NodeError ->
  dispatched (onDeploy impl msg w) = []
  /\ built (onDeploy impl msg w) = []
  /\ enriched (onDeploy impl msg w) = [].
Proof.
  open_handler; answers; intros Hupd H1 H2 H3; occurs Hupd;
    try (repeat split; reflexivity).
  all: match goal with
       | E : isTerminal _ = true |- _ => apply isTerminal_true in E; tauto
       end.
Qed.

(** C5. When the lookup of the run, on the deploy channel, answered an
    error, nothing is built, enriched or dispatched: after the lookup
    the handler logs the error and returns, and the deferred
    acknowledgment ends the run. *)
Theorem lookup_failure_aborts
    (impl : Impl) (msg : stan.Msg) (w : W)
    (id : Z) (wfr : pipelineConfig.CdWorkflowRunner) (e : string) :
  In (AFindWorkflowRunnerById id (wfr, Some e)) (onDeploy impl msg w) ->
  dispatched (onDeploy impl msg w) = []
  /\ built (onDeploy impl msg w) = []
  /\ enriched (onDeploy impl msg w) = []
  /\ exists pre r,
       onDeploy impl msg w
       = pre ++ [AFindWorkflowRunnerById id (wfr, Some e);
                 ALog Error [LStr "could not get wf runner"; LStr "err";
                             LErr (Some e)];
                 AAck msg r].
Proof.
  open_handler; answers; intros Hfind; occurs Hfind.
  repeat split.
  match goal with
  | |- exists pre r, ?l = _ => exists (firstn 4 l); eexists; reflexivity
  end.
Qed.

(** C6. A payload that does not decode, on either channel: the handler
    logs the error and acknowledges the message, and does nothing
    else; the world is changed by the acknowledgment only. *)
Theorem malformed_message_logged_and_acked
    (impl : Impl) (msg : stan.Msg) (w : W) (wf : WorkflowStatus) (e : string) :
  json_Unmarshal (stan.Data msg) WorkflowStatus_zero = (wf, Some e) ->
  (onBuild impl msg w
   = [ALog Debug [LStr "received wf update request"];
      ALog Error [LStr "error on wf status update"; LStr "err"; LErr (Some e);
                  LStr "msg"; LStr (stan.Data msg)];
      AAck msg (fst (Ack (Conn_ (pubsubClient impl)) msg w))]
   /\ world (Subscribe_callback json_Unmarshal WorkflowStatus_zero impl msg w)
      = snd (Ack (Conn_ (pubsubClient impl)) msg w))
  /\ (onDeploy impl msg w
      = [ALog Debug [LStr "received cd wf update request"];
         ALog Error [LStr "err"; LErr (Some e)];
         AAck msg (fst (Ack (Conn_ (pubsubClient impl)) msg w))]
      /\ world (SubscribeCD_callback json_Unmarshal WorkflowStatus_zero impl msg w)
         = snd (Ack (Conn_ (pubsubClient impl)) msg w)).
Proof.
  intros Hdec. open_handler. rewrite Hdec. cbn.
  destruct (Ack (Conn_ (pubsubClient impl)) msg w). cbn. repeat split.
Qed.

(** C7. A payload that decodes, on the build channel: the build
    handler's [UpdateWorkflow] is called once, with the decoded status,
    in the world the message arrived in; its error, if any, is logged;
    the message is acknowledged in the world the update left; nothing
    is built, enriched or dispatched, whatever the update answers. *)
Theorem build_update_once_no_notification
    (impl : Impl) (msg : stan.Msg) (w : W) (wf : WorkflowStatus) :
  json_Unmarshal (stan.Data msg) WorkflowStatus_zero = (wf, None) ->
  let update := Ci_UpdateWorkflow (ciHandler impl) wf w in
  let ack := Ack (Conn_ (pubsubClient impl)) msg (snd update) in
  onBuild impl msg w
  = [ALog Debug [LStr "received wf update request"];
     ACiUpdateWorkflow wf (fst update)]
    ++ (if is_nil (snd (fst update)) then []
        else [ALog Error [LStr "error on update workflow status"; LStr "err";
                          LErr (snd (fst update)); LStr "msg";
                          LStr (stan.Data msg)]])
    ++ [AAck msg (fst ack)]
  /\ world (Subscribe_callback json_Unmarshal WorkflowStatus_zero impl msg w)
     = snd ack
  /\ ciUpdates (onBuild impl msg w) = [wf]
  /\ dispatched (onBuild impl msg w) = []
  /\ built (onBuild impl msg w) = []
  /\ enriched (onBuild impl msg w) = [].
Proof.
  intros Hdec. cbn zeta. open_handler. rewrite Hdec. answers; repeat split.
Qed.

(** C8. Each registration function returns the broker's answer to its
    caller unchanged.  The constructor returns the handler exactly when
    the broker's [QueueSubscribe] accepted the build registration and
    then, in the world that left, the deploy registration; otherwise it
    returns nil, and nothing but nil: when the build registration is
    refused the deploy one is not asked, and when the deploy one is
    refused the build one stays as the broker made it. *)
Theorem registration_failure_fails_initialization
    (psc : PubSubClient WorkflowStatus Event W)
    (ci : CiHandler WorkflowStatus W) (cd : CdHandler WorkflowStatus W)
    (ef : EventFactory Event W) (ec : EventClient Event W)
    (repo : CdWorkflowRepository W) (w : W) :
  let impl := mkImpl psc ci cd ef ec repo in
  let new :=
    NewWorkflowStatusUpdateHandlerImpl json_Unmarshal WorkflowStatus_zero
      psc ci cd ef ec repo w in
  let first :=
    QueueSubscribe (Conn_ psc) workflowStatusUpdate workflowStatusUpdateGroup
      (Subscribe_callback json_Unmarshal WorkflowStatus_zero impl)
      (subscriptionOptions impl workflowStatusUpdateDurable) w in
  let second :=
    QueueSubscribe (Conn_ psc) cdWorkflowStatusUpdate cdWorkflowStatusUpdateGroup
      (SubscribeCD_callback json_Unmarshal WorkflowStatus_zero impl)
      (subscriptionOptions impl cdWorkflowStatusUpdateDurable) (snd first) in
  (forall w',
     value (Subscribe json_Unmarshal WorkflowStatus_zero impl w')
     = fst (QueueSubscribe (Conn_ psc)
              workflowStatusUpdate workflowStatusUpdateGroup
              (Subscribe_callback json_Unmarshal WorkflowStatus_zero impl)
              (subscriptionOptions impl workflowStatusUpdateDurable) w'))
  /\ (forall w',
        value (SubscribeCD json_Unmarshal WorkflowStatus_zero impl w')
        = fst (QueueSubscribe (Conn_ psc)
                 cdWorkflowStatusUpdate cdWorkflowStatusUpdateGroup
                 (SubscribeCD_callback json_Unmarshal WorkflowStatus_zero impl)
                 (subscriptionOptions impl cdWorkflowStatusUpdateDurable) w'))
  /\ (value new = Some impl <-> fst first = None /\ fst second = None)
  /\ (value new = None
      <-> fst first <> None \/ (fst first = None /\ fst second <> None))
  /\ (value new = None \/ value new = Some impl)
  /\ registrations (actions new)
     = (workflowStatusUpdate, fst first)
         :: (if is_nil (fst first)
             then [(cdWorkflowStatusUpdate, fst second)] else [])
  /\ world new = (if is_nil (fst first) then snd second else snd first)
  /\ (value new = Some impl
      <-> registrations (actions new)
          = [(workflowStatusUpdate, None); (cdWorkflowStatusUpdate, None)])
  /\ (value new = None
      <-> exists subject e, In (subject, Some e) (registrations (actions new))).
Proof.
  cbn zeta.
  split; [|split].
  - intros w'. unfold Subscribe, bind, call, log, ret.
    answers; reflexivity.
  - intros w'. unfold SubscribeCD, bind, call, log, ret.
    answers; reflexivity.
  - unfold NewWorkflowStatusUpdateHandlerImpl, Subscribe, SubscribeCD,
      bind, call, log, ret.
    answers;
      repeat match goal with
             | |- _ /\ _ => split
             | |- _ <-> _ => split; intros Hyp
             end;
      try reflexivity; try solve [intuition congruence].
    all: try solve [eexists _, _; here].
    all: destruct Hyp as (subject & e & Hin); occurs Hin.
Qed.

(** C9. When the dispatch answered an error, that dispatch is the only
    one of the run: what follows it is the log of the error and the
    acknowledgment of the message, with which the handler returns. *)
Theorem dispatch_error_logged_only
    (impl : Impl) (msg : stan.Msg) (w : W)
    (ev : Event) (b : bool) (e : string) :
  In (AWriteEvent ev (b, Some e)) (onDeploy impl msg w) ->
  dispatched (onDeploy impl msg w) = [ev]
  /\ exists pre text r,
       onDeploy impl msg w
       = pre ++ [AWriteEvent ev (b, Some e);
                 ALog Error [LStr text; LStr "error"; LErr (Some e)];
                 AAck msg r].
Proof.
  open_handler; answers; intros Hw; occurs Hw.
  all: split; [reflexivity|].
  all: match goal with
       | |- exists pre text r, ?l = _ =>
           exists (firstn 8 l); eexists _, _; reflexivity
       end.
Qed.

(** C10. Every event type given to [Build] is Success or Fail, never
    the value the variable is initialised with; the build channel
    builds no event at all.  The guard is the disjunction of the two
    conditions under which the variable is assigned, so that the
    initial value survives exactly when the guard fails. *)
Theorem built_event_type_never_unset
    (impl : Impl) (msg : stan.Msg) (w : W) :
  Forall (fun eventType => eventType = util.Success \/ eventType = util.Fail)
         (built (onDeploy impl msg w))
  /\ ~ In util.EventType_0 (built (onDeploy impl msg w))
  /\ built (onBuild impl msg w) = []
  /\ (forall s : string,
        isTerminal s
        = (s =? v1alpha1.NodeSucceeded)
          || ((s =? v1alpha1.NodeFailed) || (s =? v1alpha1.NodeError)))
  /\ (forall s : string,
        eventTypeOf s = util.EventType_0 <-> isTerminal s = false).
Proof.
  assert (Hforall :
    Forall (fun eventType => eventType = util.Success \/ eventType = util.Fail)
           (built (onDeploy impl msg w))).
  { open_handler; answers;
      repeat (apply Forall_cons; [now apply eventTypeOf_terminal|]);
      apply Forall_nil. }
  split; [exact Hforall|]. split; [|split; [|split]].
  - intros Hin. rewrite Forall_forall in Hforall.
    destruct (Hforall _ Hin); discriminate.
  - open_handler; answers; reflexivity.
  - intros s. unfold isTerminal. now rewrite orb_assoc.
  - intros s. unfold eventTypeOf, isTerminal.
    destruct (s =? v1alpha1.NodeSucceeded),
             (s =? v1alpha1.NodeFailed),
             (s =? v1alpha1.NodeError); cbn; split; congruence.
Qed.

(** *** The course of a run *)

(** The calls a deploy run makes, in order, are an initial part of:
    update, lookup, build, enrich, dispatch; it stops after the update,
    after the lookup, or goes to the end.  No event is built without
    being enriched and dispatched, and the build handler is never
    called. *)
Theorem deploy_run_steps (impl : Impl) (msg : stan.Msg) (w : W) :
  steps (onDeploy impl msg w) = []
  \/ steps (onDeploy impl msg w) = [SCdUpdate]
  \/ steps (onDeploy impl msg w) = [SCdUpdate; SFind]
  \/ steps (onDeploy impl msg w) = [SCdUpdate; SFind; SBuild; SEnrich; SWrite].
Proof.
  open_handler; answers; auto.
Qed.

(** The only call a build run makes is one update of the build
    handler, or none. *)
Theorem build_run_steps (impl : Impl) (msg : stan.Msg) (w : W) :
  steps (onBuild impl msg w) = [] \/ steps (onBuild impl msg w) = [SCiUpdate].
Proof.
  open_handler; answers; auto.
Qed.

(** On either channel at most one call fails, after a failed call the
    handler calls no collaborator any more, and the Error-level logs of
    the run are one per failure: one for a payload that does not
    decode, one for a failed call, none otherwise. *)
Theorem failure_stops_run_and_is_logged_once
    (impl : Impl) (msg : stan.Msg) (w : W) :
  let malformed :=
    if is_nil (snd (json_Unmarshal (stan.Data msg) WorkflowStatus_zero))
    then 0%nat else 1%nat in
  (steps (afterFirstFailure (onBuild impl msg w)) = []
   /\ length (errorLogs (onBuild impl msg w))
      = (malformed + length (filter failed (onBuild impl msg w)))%nat
   /\ (length (errorLogs (onBuild impl msg w)) <= 1)%nat)
  /\ (steps (afterFirstFailure (onDeploy impl msg w)) = []
      /\ length (errorLogs (onDeploy impl msg w))
         = (malformed + length (filter failed (onDeploy impl msg w)))%nat
      /\ (length (errorLogs (onDeploy impl msg w)) <= 1)%nat).
Proof.
  cbn zeta. split; open_handler; answers; repeat split; auto.
Qed.

(** When the deploy handler's update answered an error, the run is
    over after the log of the run identifier and of the error: the run
    is not looked up. *)
Theorem deploy_update_failure_aborts
    (impl : Impl) (msg : stan.Msg) (w : W)
    (wf : WorkflowStatus) (id : Z) (st e : string) :
  In (ACdUpdateWorkflow wf (id, st, Some e)) (onDeploy impl msg w) ->
  steps (onDeploy impl msg w) = [SCdUpdate]
  /\ exists pre r,
       onDeploy impl msg w
       = pre ++ [ACdUpdateWorkflow wf (id, st, Some e);
                 ALog Debug [LInt id];
                 ALog Error [LStr "err"; LErr (Some e)];
                 AAck msg r].
Proof.
  open_handler; answers; intros Hupd; occurs Hupd.
  split; [reflexivity|].
  match goal with
  | |- exists pre r, ?l = _ => exists (firstn 2 l); eexists; reflexivity
  end.
Qed.

(** When the build handler's update answered an error, the run is: the
    debug log, the update, the log of the error with the payload, the
    acknowledgment. *)
Theorem build_update_failure_logged
    (impl : Impl) (msg : stan.Msg) (w : W)
    (wf : WorkflowStatus) (n : Z) (e : string) :
  In (ACiUpdateWorkflow wf (n, Some e)) (onBuild impl msg w) ->
  exists r,
    onBuild impl msg w
    = [ALog Debug [LStr "received wf update request"];
       ACiUpdateWorkflow wf (n, Some e);
       ALog Error [LStr "error on update workflow status"; LStr "err";
                   LErr (Some e); LStr "msg"; LStr (stan.Data msg)];
       AAck msg r].
Proof.
  open_handler; answers; intros Hupd; occurs Hupd.
  eexists; reflexivity.
Qed.

(** A lookup is made only with the run identifier the update of a
    decoded status answered without error. *)
Theorem lookup_keyed_by_update
    (impl : Impl) (msg : stan.Msg) (w : W)
    (id : Z) (r : pipelineConfig.CdWorkflowRunner * error) :
  In (AFindWorkflowRunnerById id r) (onDeploy impl msg w) ->
  exists (wf : WorkflowStatus) (st : string),
    json_Unmarshal (stan.Data msg) WorkflowStatus_zero = (wf, None)
    /\ In (ACdUpdateWorkflow wf (id, st, None)) (onDeploy impl msg w).
Proof.
  open_handler; answers; intros Hfind; occurs Hfind.
  all: match goal with
       | Hd : json_Unmarshal _ _ = (?wf, None),
         Hu : Cd_UpdateWorkflow _ _ _ = (_, ?st, None, _) |- _ =>
           exists wf, st; split; [reflexivity | here]
       end.
Qed.

(** An event is dispatched only at the end of a full run: the payload
    decoded, the update answered a terminal status without error, the
    lookup with the identifier it answered resolved a run of workflow
    type Pre or Post, and the event dispatched is what the enrichment,
    with that record and its workflow type, made of the event built
    with the type of that status, the identifiers of the record and the
    deploy category. *)
Theorem dispatch_only_after_full_run
    (impl : Impl) (msg : stan.Msg) (w : W) (ev : Event) (r : bool * error) :
  In (AWriteEvent ev r) (onDeploy impl msg w) ->
  exists (wf : WorkflowStatus) (id : Z) (st : string)
         (wfr : pipelineConfig.CdWorkflowRunner) (base : Event),
    json_Unmarshal (stan.Data msg) WorkflowStatus_zero = (wf, None)
    /\ In (ACdUpdateWorkflow wf (id, st, None)) (onDeploy impl msg w)
    /\ In (AFindWorkflowRunnerById id (wfr, None)) (onDeploy impl msg w)
    /\ (st = v1alpha1.NodeSucceeded \/ st = v1alpha1.NodeFailed
        \/ st = v1alpha1.NodeError)
    /\ (pipelineConfig.WorkflowType wfr = bean.CD_WORKFLOW_TYPE_PRE
        \/ pipelineConfig.WorkflowType wfr = bean.CD_WORKFLOW_TYPE_POST)
    /\ In (ABuild (eventTypeOf st)
             (pipelineConfig.PipelineId (pipelineConfig.CdWorkflow_ wfr))
             (pipelineConfig.AppId
                (pipelineConfig.Pipeline_ (pipelineConfig.CdWorkflow_ wfr)))
             (pipelineConfig.EnvironmentId
                (pipelineConfig.Pipeline_ (pipelineConfig.CdWorkflow_ wfr)))
             util.CD base)
          (onDeploy impl msg w)
    /\ In (ABuildExtraCDData base wfr 0 (pipelineConfig.WorkflowType wfr) ev)
          (onDeploy impl msg w)
    /\ dispatched (onDeploy impl msg w) = [ev].
Proof.
  open_handler; answers; intros Hw; occurs Hw.
  all: match goal with
       | Hd : json_Unmarshal _ _ = (?wf, None),
         Hu : Cd_UpdateWorkflow _ _ _ = (?id, ?st, None, _),
         Hf : FindWorkflowRunnerById _ _ _ = (?wfr, None, _),
         Ht : isTerminal _ = true,
         Hs : bean.eqb _ _ = true,
         Hb : Build _ _ _ _ _ _ _ = (?base, _) |- _ =>
           exists wf, id, st, wfr, base;
           apply isTerminal_true in Ht;
           apply bean_eqb_eq in Hs; rewrite Hs;
           repeat split; auto; here
       end.
Qed.

(** A dispatch that answered no error is followed by the
    acknowledgment alone, whatever else it answered, and the run has
    logged nothing at level Error. *)
Theorem dispatch_success_is_silent
    (impl : Impl) (msg : stan.Msg) (w : W) (ev : Event) (b : bool) :
  In (AWriteEvent ev (b, None)) (onDeploy impl msg w) ->
  errorLogs (onDeploy impl msg w) = []
  /\ exists pre r,
       onDeploy impl msg w = pre ++ [AWriteEvent ev (b, None); AAck msg r].
Proof.
  open_handler; answers; intros Hw; occurs Hw.
  all: split; [reflexivity|].
  all: match goal with
       | |- exists pre r, ?l = _ => exists (firstn 8 l); eexists; reflexivity
       end.
Qed.

(** *** Registration *)

(** The constructor asks for the build registration first, and for the
    deploy registration only if the build one was accepted, in the
    world the build registration left.  It calls nothing else, and
    undoes nothing: when the deploy registration is refused the world
    is the one the two registrations left. *)
Theorem constructor_registers_in_order
    (psc : PubSubClient WorkflowStatus Event W)
    (ci : CiHandler WorkflowStatus W) (cd : CdHandler WorkflowStatus W)
    (ef : EventFactory Event W) (ec : EventClient Event W)
    (repo : CdWorkflowRepository W) (w : W) :
  let impl := mkImpl psc ci cd ef ec repo in
  let new :=
    NewWorkflowStatusUpdateHandlerImpl json_Unmarshal WorkflowStatus_zero
      psc ci cd ef ec repo w in
  let first :=
    QueueSubscribe (Conn_ psc) workflowStatusUpdate workflowStatusUpdateGroup
      (Subscribe_callback json_Unmarshal WorkflowStatus_zero impl)
      (subscriptionOptions impl workflowStatusUpdateDurable) w in
  let second :=
    QueueSubscribe (Conn_ psc) cdWorkflowStatusUpdate cdWorkflowStatusUpdateGroup
      (SubscribeCD_callback json_Unmarshal WorkflowStatus_zero impl)
      (subscriptionOptions impl cdWorkflowStatusUpdateDurable) (snd first) in
  registrations (actions new)
  = (workflowStatusUpdate, fst first)
      :: (if is_nil (fst first) then [(cdWorkflowStatusUpdate, fst second)] else [])
  /\ world new = (if is_nil (fst first) then snd second else snd first)
  /\ steps (actions new) = map (fun _ => SSubscribe) (registrations (actions new))
  /\ acks (actions new) = [].
Proof.
  cbn zeta.
  unfold NewWorkflowStatusUpdateHandlerImpl, Subscribe, SubscribeCD,
    bind, call, log, ret.
  answers; repeat split.
Qed.

(** With an acknowledgment wait of a number of seconds that fits the
    64-bit count of nanoseconds, every registration the constructor
    asks for is the build one or the deploy one, each with its own
    queue group and durable name, starting with the last message
    received, in manual acknowledgment mode, with that wait and with
    one message in flight. *)
Theorem registrations_manual_ack_one_in_flight
    (psc : PubSubClient WorkflowStatus Event W)
    (ci : CiHandler WorkflowStatus W) (cd : CdHandler WorkflowStatus W)
    (ef : EventFactory Event W) (ec : EventClient Event W)
    (repo : CdWorkflowRepository W) (w : W) :
  (0 <= AckDuration psc <= 9223372036)%Z ->
  Forall
    (fun reg =>
       reg = (workflowStatusUpdate, workflowStatusUpdateGroup,
              [stan.DurableName workflowStatusUpdateDurable;
               stan.StartWithLastReceived;
               stan.AckWait (AckDuration psc * 1000000000);
               stan.SetManualAckMode; stan.MaxInflight 1])
       \/ reg = (cdWorkflowStatusUpdate, cdWorkflowStatusUpdateGroup,
                 [stan.DurableName cdWorkflowStatusUpdateDurable;
                  stan.StartWithLastReceived;
                  stan.AckWait (AckDuration psc * 1000000000);
                  stan.SetManualAckMode; stan.MaxInflight 1]))
    (registrationOptions
       (actions
          (NewWorkflowStatusUpdateHandlerImpl json_Unmarshal WorkflowStatus_zero
             psc ci cd ef ec repo w))).
Proof.
  intros Hrange.
  assert (Hsec : time.seconds (AckDuration psc) = (AckDuration psc * 1000000000)%Z).
  { unfold time.seconds, time.int64, time.Second.
    change (2 ^ 63)%Z with 9223372036854775808%Z.
    change (2 ^ 64)%Z with 18446744073709551616%Z.
    rewrite (Z.mod_small (AckDuration psc + 9223372036854775808)) by lia.
    rewrite Z.mod_small by lia. lia. }
  unfold NewWorkflowStatusUpdateHandlerImpl, Subscribe, SubscribeCD,
    subscriptionOptions, bind, call, log, ret.
  answers; rewrite ?Hsec; repeat (apply Forall_cons; [auto|]); apply Forall_nil.
Qed.

(** *** The acknowledgment wait *)

(** [time.Duration(n) * time.Second] is [n] thousand million
    nanoseconds as long as that fits 64 bits, that is up to 9223372036
    seconds either way. *)
Theorem seconds_exact (n : Z) :
  (-9223372036 <= n <= 9223372036)%Z ->
  time.seconds n = (n * 1000000000)%Z.
Proof.
  intros Hrange. unfold time.seconds, time.int64, time.Second.
  change (2 ^ 63)%Z with 9223372036854775808%Z.
  change (2 ^ 64)%Z with 18446744073709551616%Z.
  rewrite (Z.mod_small (n + 9223372036854775808)) by lia.
  rewrite Z.mod_small by lia. lia.
Qed.

(** From 9223372037 seconds on the product wraps around: up to
    18446744073 seconds the wait comes out 2^64 nanoseconds short, and
    negative. *)
Theorem seconds_wraps_negative (n : Z) :
  (9223372037 <= n <= 18446744073)%Z ->
  time.seconds n = (n * 1000000000 - 2 ^ 64)%Z /\ (time.seconds n < 0)%Z.
Proof.
  intros Hrange.
  assert (Heq : time.seconds n = (n * 1000000000 - 2 ^ 64)%Z).
  { unfold time.seconds, time.int64, time.Second.
    change (2 ^ 63)%Z with 9223372036854775808%Z.
    change (2 ^ 64)%Z with 18446744073709551616%Z.
    rewrite (Z.mod_small (n + 9223372036854775808)) by lia.
    replace (n + 9223372036854775808 - 9223372036854775808)%Z with n by lia.
    replace (n * 1000000000 + 9223372036854775808)%Z
      with (n * 1000000000 + 9223372036854775808 - 18446744073709551616
            + 1 * 18446744073709551616)%Z by lia.
    rewrite Z_mod_plus_full, Z.mod_small by lia. lia. }
  split; [exact Heq|]. rewrite Heq.
  change (2 ^ 64)%Z with 18446744073709551616%Z. lia.
Qed.

End Properties.

(** ** The properties on the small instance *)

(** A succeeded pre-stage run of pipeline 7 sends one Success event of
    stage Pre, and the event reaches the outbox. *)
Lemma pre_post_terminal_dispatches_once_witness :
  let msg := stan.mkMsg 11 "1Succeeded" in
  let wfr := Demo.runner 1 bean.CD_WORKFLOW_TYPE_PRE in
  let ev := Demo.mkEvent util.Success 7 3 9 util.CD (Some bean.CD_WORKFLOW_TYPE_PRE) in
  Demo.decode (stan.Data msg) Demo.zero = (Demo.mkStatus 1 "Succeeded", None)
  /\ Cd_UpdateWorkflow Demo.cd (Demo.mkStatus 1 "Succeeded") Demo.w0
     = (1, "Succeeded", None, Demo.w0)
  /\ FindWorkflowRunnerById Demo.repo 1 Demo.w0 = (wfr, None, Demo.w0)
  /\ dispatched (Demo.onDeploy msg Demo.w0) = [ev]
  /\ built (Demo.onDeploy msg Demo.w0) = [util.Success]
  /\ enriched (Demo.onDeploy msg Demo.w0) = [bean.CD_WORKFLOW_TYPE_PRE]
  /\ Demo.outbox
       (world (SubscribeCD_callback Demo.decode Demo.zero Demo.impl msg Demo.w0))
     = [ev].
Proof.
  cbn zeta.
  assert (Hdec :
    Demo.decode (stan.Data (stan.mkMsg 11 "1Succeeded")) Demo.zero
    = (Demo.mkStatus 1 "Succeeded", None)) by reflexivity.
  assert (Hupd :
    Cd_UpdateWorkflow (cdHandler Demo.impl) (Demo.mkStatus 1 "Succeeded") Demo.w0
    = (1, "Succeeded", None, Demo.w0)) by reflexivity.
  assert (Hfind :
    FindWorkflowRunnerById (cdWorkflowRepository Demo.impl) 1 Demo.w0
    = (Demo.runner 1 bean.CD_WORKFLOW_TYPE_PRE, None, Demo.w0)) by reflexivity.
  split; [exact Hdec|]. split; [exact Hupd|]. split; [exact Hfind|].
  destruct (pre_post_terminal_dispatches_once Demo.decode Demo.zero Demo.impl
              (stan.mkMsg 11 "1Succeeded") Demo.w0 Demo.w0 Demo.w0
              (Demo.mkStatus 1 "Succeeded") 1 "Succeeded"
              (Demo.runner 1 bean.CD_WORKFLOW_TYPE_PRE)
              Hdec Hupd Hfind (or_introl eq_refl) (or_introl eq_refl))
    as (eventType & stageText & failText & Hsucc & _ & _ & Hd & Hb & He & Hw).
  rewrite (Hsucc eq_refl) in *.
  split; [exact Hd|]. split; [exact Hb|]. split; [exact He|].
  rewrite Hw. reflexivity.
Defined.

(** A succeeded deploy run sends nothing. *)
Lemma deploy_stage_never_notified_witness :
  let tr := Demo.onDeploy (stan.mkMsg 21 "3Succeeded") Demo.w0 in
  In (AFindWorkflowRunnerById 3 (Demo.runner 3 bean.CD_WORKFLOW_TYPE_DEPLOY, None)) tr
  /\ dispatched tr = [] /\ built tr = [] /\ enriched tr = [].
Proof.
  cbn zeta.
  assert (Hfind :
    In (AFindWorkflowRunnerById 3 (Demo.runner 3 bean.CD_WORKFLOW_TYPE_DEPLOY, None))
       (Demo.onDeploy (stan.mkMsg 21 "3Succeeded") Demo.w0)) by here.
  split; [exact Hfind|].
  exact (deploy_stage_never_notified Demo.decode Demo.zero Demo.impl
           (stan.mkMsg 21 "3Succeeded") Demo.w0 3
           (Demo.runner 3 bean.CD_WORKFLOW_TYPE_DEPLOY) None Hfind eq_refl).
Defined.

(** A running pre-stage run sends nothing. *)
Lemma non_terminal_status_no_notification_witness :
  let tr := Demo.onDeploy (stan.mkMsg 31 "1Running") Demo.w0 in
  In (ACdUpdateWorkflow (Demo.mkStatus 1 "Running") (1, "Running", None)) tr
  /\ dispatched tr = [] /\ built tr = [] /\ enriched tr = [].
Proof.
  cbn zeta.
  assert (Hupd :
    In (ACdUpdateWorkflow (Demo.mkStatus 1 "Running") (1, "Running", None))
       (Demo.onDeploy (stan.mkMsg 31 "1Running") Demo.w0)) by here.
  split; [exact Hupd|].
  apply (non_terminal_status_no_notification Demo.decode Demo.zero Demo.impl
           (stan.mkMsg 31 "1Running") Demo.w0
           (Demo.mkStatus 1 "Running") 1 "Running" None Hupd);
    intros H; discriminate H.
Defined.

(** A run the repository does not know: the lookup fails, nothing is
    sent. *)
Lemma lookup_failure_aborts_witness :
  let tr := Demo.onDeploy (stan.mkMsg 41 "9Succeeded") Demo.w0 in
  In (AFindWorkflowRunnerById 9 (Demo.noRunner, Some "pg: no rows in result set")) tr
  /\ dispatched tr = [] /\ built tr = [] /\ enriched tr = []
  /\ exists pre r,
       tr = pre ++ [AFindWorkflowRunnerById 9
                      (Demo.noRunner, Some "pg: no rows in result set");
                    ALog Error [LStr "could not get wf runner"; LStr "err";
                                LErr (Some "pg: no rows in result set")];
                    AAck (stan.mkMsg 41 "9Succeeded") r].
Proof.
  cbn zeta.
  assert (Hfind :
    In (AFindWorkflowRunnerById 9 (Demo.noRunner, Some "pg: no rows in result set"))
       (Demo.onDeploy (stan.mkMsg 41 "9Succeeded") Demo.w0)) by here.
  split; [exact Hfind|].
  exact (lookup_failure_aborts Demo.decode Demo.zero Demo.impl
           (stan.mkMsg 41 "9Succeeded") Demo.w0 9 Demo.noRunner
           "pg: no rows in result set" Hfind).
Defined.

(** A payload that is no status report, on both channels. *)
Lemma malformed_message_logged_and_acked_witness :
  let msg := stan.mkMsg 51 "{" in
  Demo.decode (stan.Data msg) Demo.zero = (Demo.zero, Some "invalid character")
  /\ Demo.onBuild msg Demo.w0
     = [ALog Debug [LStr "received wf update request"];
        ALog Error [LStr "error on wf status update"; LStr "err";
                    LErr (Some "invalid character"); LStr "msg"; LStr "{"];
        AAck msg None]
  /\ Demo.onDeploy msg Demo.w0
     = [ALog Debug [LStr "received cd wf update request"];
        ALog Error [LStr "err"; LErr (Some "invalid character")];
        AAck msg None].
Proof.
  cbn zeta.
  assert (Hdec :
    Demo.decode (stan.Data (stan.mkMsg 51 "{")) Demo.zero
    = (Demo.zero, Some "invalid character")) by reflexivity.
  split; [exact Hdec|].
  pose proof (malformed_message_logged_and_acked Demo.decode Demo.zero Demo.impl
                (stan.mkMsg 51 "{") Demo.w0 Demo.zero "invalid character" Hdec)
    as [[Hb _] [Hd _]].
  split; [exact Hb | exact Hd].
Defined.

(** A status report on the build channel: one update, nothing sent. *)
Lemma build_update_once_no_notification_witness :
  let msg := stan.mkMsg 61 "4Succeeded" in
  Demo.decode (stan.Data msg) Demo.zero = (Demo.mkStatus 4 "Succeeded", None)
  /\ Demo.onBuild msg Demo.w0
     = [ALog Debug [LStr "received wf update request"];
        ACiUpdateWorkflow (Demo.mkStatus 4 "Succeeded") (4, None);
        AAck msg None]
  /\ Demo.acked
       (world (Subscribe_callback Demo.decode Demo.zero Demo.impl msg Demo.w0))
     = [61]
  /\ ciUpdates (Demo.onBuild msg Demo.w0) = [Demo.mkStatus 4 "Succeeded"]
  /\ dispatched (Demo.onBuild msg Demo.w0) = []
  /\ built (Demo.onBuild msg Demo.w0) = []
  /\ enriched (Demo.onBuild msg Demo.w0) = [].
Proof.
  cbn zeta.
  assert (Hdec :
    Demo.decode (stan.Data (stan.mkMsg 61 "4Succeeded")) Demo.zero
    = (Demo.mkStatus 4 "Succeeded", None)) by reflexivity.
  split; [exact Hdec|].
  destruct (build_update_once_no_notification Demo.decode Demo.zero Demo.impl
              (stan.mkMsg 61 "4Succeeded") Demo.w0 (Demo.mkStatus 4 "Succeeded") Hdec)
    as (Htr & Hw & Hrest).
  split; [exact Htr|]. split; [rewrite Hw; reflexivity | exact Hrest].
Defined.

(** A failed post-stage run while the notification service is down. *)
Lemma dispatch_error_logged_only_witness :
  let msg := stan.mkMsg 71 "2Failed" in
  let ev := Demo.mkEvent util.Fail 7 3 9 util.CD (Some bean.CD_WORKFLOW_TYPE_POST) in
  In (AWriteEvent ev (false, Some "connection refused")) (Demo.onDeploy msg Demo.w_down)
  /\ dispatched (Demo.onDeploy msg Demo.w_down) = [ev]
  /\ exists pre text r,
       Demo.onDeploy msg Demo.w_down
       = pre ++ [AWriteEvent ev (false, Some "connection refused");
                 ALog Error [LStr text; LStr "error";
                             LErr (Some "connection refused")];
                 AAck msg r].
Proof.
  cbn zeta.
  assert (Hw :
    In (AWriteEvent
          (Demo.mkEvent util.Fail 7 3 9 util.CD (Some bean.CD_WORKFLOW_TYPE_POST))
          (false, Some "connection refused"))
       (Demo.onDeploy (stan.mkMsg 71 "2Failed") Demo.w_down)) by here.
  split; [exact Hw|].
  exact (dispatch_error_logged_only Demo.decode Demo.zero Demo.impl
           (stan.mkMsg 71 "2Failed") Demo.w_down
           (Demo.mkEvent util.Fail 7 3 9 util.CD (Some bean.CD_WORKFLOW_TYPE_POST))
           false "connection refused" Hw).
Defined.

(** A deploy update that fails: the run stops before the lookup. *)
Lemma deploy_update_failure_aborts_witness :
  let msg := stan.mkMsg 81 "1Succeeded" in
  let tr := Faulty.onDeploy msg Demo.w0 in
  In (ACdUpdateWorkflow (Demo.mkStatus 1 "Succeeded")
        (0, "", Some "workflow not found")) tr
  /\ steps tr = [SCdUpdate]
  /\ exists pre r,
       tr = pre ++ [ACdUpdateWorkflow (Demo.mkStatus 1 "Succeeded")
                      (0, "", Some "workflow not found");
                    ALog Debug [LInt 0];
                    ALog Error [LStr "err"; LErr (Some "workflow not found")];
                    AAck msg r].
Proof.
  cbn zeta.
  assert (Hupd :
    In (ACdUpdateWorkflow (Demo.mkStatus 1 "Succeeded")
          (0, "", Some "workflow not found"))
       (Faulty.onDeploy (stan.mkMsg 81 "1Succeeded") Demo.w0)) by here.
  split; [exact Hupd|].
  exact (deploy_update_failure_aborts Demo.decode Demo.zero Faulty.impl
           (stan.mkMsg 81 "1Succeeded") Demo.w0
           (Demo.mkStatus 1 "Succeeded") 0 "" "workflow not found" Hupd).
Defined.

(** A build update that fails. *)
Lemma build_update_failure_logged_witness :
  let msg := stan.mkMsg 82 "4Running" in
  In (ACiUpdateWorkflow (Demo.mkStatus 4 "Running") (0, Some "workflow not found"))
     (Faulty.onBuild msg Demo.w0)
  /\ exists r,
       Faulty.onBuild msg Demo.w0
       = [ALog Debug [LStr "received wf update request"];
          ACiUpdateWorkflow (Demo.mkStatus 4 "Running")
            (0, Some "workflow not found");
          ALog Error [LStr "error on update workflow status"; LStr "err";
                      LErr (Some "workflow not found"); LStr "msg";
                      LStr "4Running"];
          AAck msg r].
Proof.
  cbn zeta.
  assert (Hupd :
    In (ACiUpdateWorkflow (Demo.mkStatus 4 "Running") (0, Some "workflow not found"))
       (Faulty.onBuild (stan.mkMsg 82 "4Running") Demo.w0)) by here.
  split; [exact Hupd|].
  exact (build_update_failure_logged Demo.decode Demo.zero Faulty.impl
           (stan.mkMsg 82 "4Running") Demo.w0
           (Demo.mkStatus 4 "Running") 0 "workflow not found" Hupd).
Defined.

(** The lookup of run 3 follows an update that answered 3. *)
Lemma lookup_keyed_by_update_witness :
  let msg := stan.mkMsg 83 "3Failed" in
  let tr := Demo.onDeploy msg Demo.w0 in
  In (AFindWorkflowRunnerById 3 (Demo.runner 3 bean.CD_WORKFLOW_TYPE_DEPLOY, None)) tr
  /\ exists (wf : Demo.WorkflowStatus) (st : string),
       Demo.decode (stan.Data msg) Demo.zero = (wf, None)
       /\ In (ACdUpdateWorkflow wf (3, st, None)) tr.
Proof.
  cbn zeta.
  assert (Hfind :
    In (AFindWorkflowRunnerById 3 (Demo.runner 3 bean.CD_WORKFLOW_TYPE_DEPLOY, None))
       (Demo.onDeploy (stan.mkMsg 83 "3Failed") Demo.w0)) by here.
  split; [exact Hfind|].
  exact (lookup_keyed_by_update Demo.decode Demo.zero Demo.impl
           (stan.mkMsg 83 "3Failed") Demo.w0 3
           (Demo.runner 3 bean.CD_WORKFLOW_TYPE_DEPLOY, None) Hfind).
Defined.

(** The event a failed post-stage run dispatches, traced back. *)
Lemma dispatch_only_after_full_run_witness :
  let msg := stan.mkMsg 84 "2Error" in
  let tr := Demo.onDeploy msg Demo.w0 in
  let ev := Demo.mkEvent util.Fail 7 3 9 util.CD (Some bean.CD_WORKFLOW_TYPE_POST) in
  In (AWriteEvent ev (true, None)) tr
  /\ exists (wf : Demo.WorkflowStatus) (id : Z) (st : string)
            (wfr : pipelineConfig.CdWorkflowRunner) (base : Demo.Event),
       Demo.decode (stan.Data msg) Demo.zero = (wf, None)
       /\ In (ACdUpdateWorkflow wf (id, st, None)) tr
       /\ In (AFindWorkflowRunnerById id (wfr, None)) tr
       /\ (st = v1alpha1.NodeSucceeded \/ st = v1alpha1.NodeFailed
           \/ st = v1alpha1.NodeError)
       /\ (pipelineConfig.WorkflowType wfr = bean.CD_WORKFLOW_TYPE_PRE
           \/ pipelineConfig.WorkflowType wfr = bean.CD_WORKFLOW_TYPE_POST)
       /\ In (ABuild (eventTypeOf st)
                (pipelineConfig.PipelineId (pipelineConfig.CdWorkflow_ wfr))
                (pipelineConfig.AppId
                   (pipelineConfig.Pipeline_ (pipelineConfig.CdWorkflow_ wfr)))
                (pipelineConfig.EnvironmentId
                   (pipelineConfig.Pipeline_ (pipelineConfig.CdWorkflow_ wfr)))
                util.CD base) tr
       /\ In (ABuildExtraCDData base wfr 0 (pipelineConfig.WorkflowType wfr) ev) tr
       /\ dispatched tr = [ev].
Proof.
  cbn zeta.
  assert (Hw :
    In (AWriteEvent
          (Demo.mkEvent util.Fail 7 3 9 util.CD (Some bean.CD_WORKFLOW_TYPE_POST))
          (true, None))
       (Demo.onDeploy (stan.mkMsg 84 "2Error") Demo.w0)) by here.
  split; [exact Hw|].
  exact (dispatch_only_after_full_run Demo.decode Demo.zero Demo.impl
           (stan.mkMsg 84 "2Error") Demo.w0
           (Demo.mkEvent util.Fail 7 3 9 util.CD (Some bean.CD_WORKFLOW_TYPE_POST))
           (true, None) Hw).
Defined.

(** A succeeded pre-stage run with the notification service up. *)
Lemma dispatch_success_is_silent_witness :
  let msg := stan.mkMsg 85 "1Succeeded" in
  let ev := Demo.mkEvent util.Success 7 3 9 util.CD (Some bean.CD_WORKFLOW_TYPE_PRE) in
  In (AWriteEvent ev (true, None)) (Demo.onDeploy msg Demo.w0)
  /\ errorLogs (Demo.onDeploy msg Demo.w0) = []
  /\ exists pre r,
       Demo.onDeploy msg Demo.w0 = pre ++ [AWriteEvent ev (true, None); AAck msg r].
Proof.
  cbn zeta.
  assert (Hw :
    In (AWriteEvent
          (Demo.mkEvent util.Success 7 3 9 util.CD (Some bean.CD_WORKFLOW_TYPE_PRE))
          (true, None))
       (Demo.onDeploy (stan.mkMsg 85 "1Succeeded") Demo.w0)) by here.
  split; [exact Hw|].
  exact (dispatch_success_is_silent Demo.decode Demo.zero Demo.impl
           (stan.mkMsg 85 "1Succeeded") Demo.w0
           (Demo.mkEvent util.Success 7 3 9 util.CD (Some bean.CD_WORKFLOW_TYPE_PRE))
           true Hw).
Defined.

(** The registrations of the small instance, with a wait of 30
    seconds. *)
Lemma registrations_manual_ack_one_in_flight_witness :
  (0 <= AckDuration (mkPubSubClient Demo.conn 30) <= 9223372036)%Z
  /\ Forall
       (fun reg =>
          reg = (workflowStatusUpdate, workflowStatusUpdateGroup,
                 [stan.DurableName workflowStatusUpdateDurable;
                  stan.StartWithLastReceived;
                  stan.AckWait (AckDuration (mkPubSubClient Demo.conn 30) * 1000000000);
                  stan.SetManualAckMode; stan.MaxInflight 1])
          \/ reg = (cdWorkflowStatusUpdate, cdWorkflowStatusUpdateGroup,
                    [stan.DurableName cdWorkflowStatusUpdateDurable;
                     stan.StartWithLastReceived;
                     stan.AckWait (AckDuration (mkPubSubClient Demo.conn 30) * 1000000000);
                     stan.SetManualAckMode; stan.MaxInflight 1]))
       (registrationOptions (actions (Demo.new Demo.w0))).
Proof.
  assert (Hrange : (0 <= AckDuration (mkPubSubClient Demo.conn 30) <= 9223372036)%Z)
    by (cbn; lia).
  split; [exact Hrange|].
  exact (registrations_manual_ack_one_in_flight Demo.decode Demo.zero
           (mkPubSubClient Demo.conn 30) Demo.ci Demo.cd Demo.factory
           Demo.client Demo.repo Demo.w0 Hrange).
Defined.

(** Thirty seconds. *)
Lemma seconds_exact_witness :
  (-9223372036 <= 30 <= 9223372036)%Z /\ time.seconds 30 = (30 * 1000000000)%Z.
Proof.
  assert (Hrange : (-9223372036 <= 30 <= 9223372036)%Z) by lia.
  split; [exact Hrange|].
  exact (seconds_exact 30 Hrange).
Defined.

(** The first number of seconds that does not fit. *)
Lemma seconds_wraps_negative_witness :
  (9223372037 <= 9223372037 <= 18446744073)%Z
  /\ time.seconds 9223372037 = (9223372037 * 1000000000 - 2 ^ 64)%Z
  /\ (time.seconds 9223372037 < 0)%Z.
Proof.
  assert (Hrange : (9223372037 <= 9223372037 <= 18446744073)%Z) by lia.
  split; [exact Hrange|].
  exact (seconds_wraps_negative 9223372037 Hrange).
Defined.
